(** * The definition store of the bot: [database.py]

    A shallow embedding of [src/database.py], the data-access layer that
    keeps per-server command definitions in the SQLite table
    [defs(server, command, def)].

    The Python module is a handful of functions that each open a scoped
    connection with the generator-based context manager [connect], run one
    statement on the yielded cursor and leave.  The embedding keeps that
    shape:

    - Python control flow (fall through, [return], [raise]) is a
      [completion]; a block of statements is a state transformer returning a
      completion ([block]), over the cursor inside a [with] block and over
      the [world] outside of it;
    - the [sqlite3] engine runs the four statements of the module by
      [run_statement], on a [database] value: the schema catalog in
      [sqlite_master] order and the rows of [defs] in rowid order.  Python
      binds the parameters of a statement before the engine steps it, and
      refuses an integer that does not fit 64 bits;
    - a connection holds the file as it is and, while a transaction is
      open, the pending state it sees.  [INSERT] and [DELETE] open a
      transaction; what a statement does outside a transaction is in the
      file at once;
    - SQL text handed to [sql_execute] comes with what the engine does
      with it on a connection ([raw_sql]);
    - the files that [sqlite3.connect] can reach are a finite map from
      paths to databases.  A path stands for the file it names.  A path at
      which SQLite would create a new file is represented by the empty
      database, a path that cannot be opened at all by an absent key.

    Outside the model: concurrent connections and locking, files that are
    read-only or no databases, failures of [commit], [rollback] and
    [close] themselves, objects other than tables, and [with] blocks that
    do more than use the cursor they are given.  The table [defs], where
    a file has it, has the columns [(server INTEGER, command TEXT, def
    TEXT)] and no constraint. *)

From Stdlib Require Import Ascii.
From stdpp Require Import gmap strings list.

Local Open Scope Z_scope.
Local Open Scope string_scope.
Local Open Scope list_scope.

(** ** Python values and exceptions *)

#[warnings="-register-all"]
Inductive pyval : Type :=
| PyNone
| PyBool (b : bool)
| PyInt (n : Z)
| PyStr (s : string)
| PyTuple (items : list pyval)
| PyList (items : list pyval).

(** [Sqlite3Error] stands for [sqlite3.Error] and all of its subclasses, the
    only class that [connect] handles. *)
Inductive exn : Type :=
| Sqlite3Error (msg : string)
| UnboundLocalError (msg : string)
| IndexError (msg : string)
| OverflowError (msg : string)
| OtherException (msg : string).

Definition is_sqlite3_error (e : exn) : bool :=
  match e with
  | Sqlite3Error _ => true
  | _ => false
  end.

(** [str(e)], what [print(e)] writes. *)
Definition exn_message (e : exn) : string :=
  match e with
  | Sqlite3Error msg => msg
  | UnboundLocalError msg => msg
  | IndexError msg => msg
  | OverflowError msg => msg
  | OtherException msg => msg
  end.

(** How a statement or a block ends: it falls through to the next statement,
    executes [return v], or raises. *)
Inductive completion (A : Type) : Type :=
| Normal (a : A)
| Return (v : pyval)
| Raise (e : exn).
Arguments Normal {A} a.
Arguments Return {A} v.
Arguments Raise {A} e.

(** What the caller of a function sees. *)
Inductive result : Type :=
| Returned (v : pyval)
| Raised (e : exn).

(** ** Blocks of statements over a state *)

Definition block (S A : Type) : Type := S -> completion A * S.

Definition pass {S A : Type} (a : A) : block S A := fun s => (Normal a, s).
Definition return_ {S A : Type} (v : pyval) : block S A := fun s => (Return v, s).
Definition raise {S A : Type} (e : exn) : block S A := fun s => (Raise e, s).

Definition bind {S A B : Type} (m : block S A) (k : A -> block S B) : block S B :=
  fun s =>
    match m s with
    | (Normal a, s') => k a s'
    | (Return v, s') => (Return v, s')
    | (Raise e, s') => (Raise e, s')
    end.

Declare Scope block_scope.
Delimit Scope block_scope with block.
Bind Scope block_scope with block.
Notation "x <- m ;; k" := (bind m (fun x => k))
  (at level 100, m at next level, right associativity) : block_scope.
Notation "m ;; k" := (bind m (fun _ => k))
  (at level 100, right associativity) : block_scope.

(** A function body run to its end: falling off the end returns [None]. *)
Definition call {S : Type} (body : block S unit) (s : S) : result * S :=
  match body s with
  | (Normal _, s') => (Returned PyNone, s')
  | (Return v, s') => (Returned v, s')
  | (Raise e, s') => (Raised e, s')
  end.

(** ** The store *)

(** The integers that SQLite stores: 64 bits, signed. *)
Definition int64 (z : Z) : bool :=
  Z.leb (- 2 ^ 63) z && Z.ltb z (2 ^ 63).

(** Reading an integer as a stored one.  Python binds a parameter only when
    [int64] holds of it, and then this is the integer itself. *)
Definition store_int (z : Z) : Z := if int64 z then z else 0.

Definition store_int_int64 (z : Z) : int64 (store_int z) = true :=
  match int64 z as b return int64 z = b -> int64 (if b then z else 0) = true with
  | true => fun H => H
  | false => fun _ => eq_refl
  end eq_refl.

(** One row of [defs(server INTEGER, command TEXT, def TEXT)]. *)
Record row : Type := Row {
  row_server : Z;
  row_command : string;
  row_def : string;
  row_server_int64 : int64 row_server = true
}.

(** The row that [VALUES (?, ?, ?)] makes of bound parameters. *)
Definition mkRow (server : Z) (command definition : string) : row :=
  Row (store_int server) command definition (store_int_int64 server).

(** A database file: the names of its tables as [sqlite_master] lists them
    and the rows of [defs] in rowid order (read only when the table
    exists). *)
Record database : Type := mkDatabase {
  tables : list string;
  defs : list row
}.

Definition defs_table : string := "defs".

(** SQLite compares names of tables without regard to the case of the
    letters A to Z. *)
Definition lower_ascii (c : ascii) : ascii :=
  let n := nat_of_ascii c in
  if Nat.leb 65 n && Nat.leb n 90 then ascii_of_nat (n + 32) else c.

Fixpoint lower (s : string) : string :=
  match s with
  | EmptyString => EmptyString
  | String c rest => String (lower_ascii c) (lower rest)
  end.

Definition has_defs (d : database) : bool :=
  existsb (fun name => String.eqb (lower name) defs_table) (tables d).

(** [WHERE server=? AND command=?] *)
Definition matches (server : Z) (command : string) (r : row) : bool :=
  Z.eqb (row_server r) server && String.eqb (row_command r) command.

(** The statements this module sends to the engine, parameters bound. *)
Inductive statement : Type :=
| SelectTableNames
| InsertDef (server : Z) (command definition : string)
| SelectDef (server : Z) (command : string)
| DeleteDef (server : Z) (command : string).

(** The statements before which Python opens a transaction. *)
Definition is_dml (s : statement) : bool :=
  match s with
  | InsertDef _ _ _ | DeleteDef _ _ => true
  | SelectTableNames | SelectDef _ _ => false
  end.

(** Whether Python can bind the parameters: an integer has to fit 64
    bits, text always binds. *)
Definition bindable (s : statement) : bool :=
  match s with
  | SelectTableNames => true
  | InsertDef server _ _ => int64 server
  | SelectDef server _ => int64 server
  | DeleteDef server _ => int64 server
  end.

Definition no_such_table : string := "no such table: defs".
Definition unable_to_open : string := "unable to open database file".

(** What binding an integer outside 64 bits raises; no [sqlite3.Error]. *)
Definition int_too_large : exn :=
  OverflowError "Python int too large to convert to SQLite INTEGER".

(** One statement on a database: the message of the error when the
    statement does not compile, or the database after the statement and
    the rows it produced. *)
Definition run_statement (s : statement) (d : database)
  : string + database * list (list pyval) :=
  match s with
  | SelectTableNames =>
      inr (d, map (fun name => [PyStr name]) (tables d))
  | InsertDef server command definition =>
      if has_defs d
      then inr (mkDatabase (tables d) (defs d ++ [mkRow server command definition]), [])
      else inl no_such_table
  | SelectDef server command =>
      if has_defs d
      then inr (d, map (fun r => [PyStr (row_def r)])
                       (filter (fun r => matches server command r) (defs d)))
      else inl no_such_table
  | DeleteDef server command =>
      if has_defs d
      then inr (mkDatabase (tables d)
                  (filter (fun r => ~ matches server command r) (defs d)), [])
      else inl no_such_table
  end.

(** ** Connections and cursors *)

(** An open connection: the file it was opened on, what the file holds,
    and the state that the open transaction has reached, if one is
    open. *)
Record connection : Type := Connection {
  conn_path : string;
  conn_file : database;
  conn_txn : option database
}.

(** A connection as [sqlite3.connect] returns it, on a file that holds
    [d]. *)
Definition mkConnection (path : string) (d : database) : connection :=
  Connection path d None.

(** The database as the connection sees it, uncommitted changes
    included. *)
Definition conn_db (db : connection) : database :=
  default (conn_file db) (conn_txn db).

(** A cursor belongs to its connection: a statement executed on the cursor
    changes what the connection sees, so the connection lives inside the
    cursor.  [cur_rows] are the result rows not fetched yet. *)
Record cursor : Type := mkCursor {
  cur_conn : connection;
  cur_rows : list (list pyval)
}.

(** All that lives longer than one call: the database files, what was
    printed, and the number of connection handles that are open. *)
Record world : Type := mkWorld {
  disk : gmap string database;
  stdout : list string;
  open_handles : nat
}.

(** [BEGIN], when no transaction is open. *)
Definition begin (db : connection) : connection :=
  Connection (conn_path db) (conn_file db) (Some (conn_db db)).

(** [c.execute(sql, params)] for the statements of this module: the
    statement is compiled, a transaction is opened before an [INSERT] or
    a [DELETE], the parameters are bound, and the statement runs. *)
Definition execute (s : statement) : block cursor unit :=
  fun c =>
    let db := cur_conn c in
    match run_statement s (conn_db db) with
    | inl msg => (Raise (Sqlite3Error msg), c)
    | inr (d, rows) =>
        let db := if is_dml s then begin db else db in
        if bindable s
        then
          (Normal tt,
           mkCursor
             (if is_dml s
              then Connection (conn_path db) (conn_file db) (Some d)
              else db)
             rows)
        else (Raise int_too_large, mkCursor db (cur_rows c))
    end.

(** SQL text as [sql_execute] receives it, with what the engine does with
    it on a connection: the connection afterwards, and the rows produced
    or the exception raised. *)
Record raw_sql : Type := RawSql {
  sql_text : string;
  sql_run : connection -> connection * (exn + list (list pyval))
}.

(** [c.execute(sql)] *)
Definition execute_sql (sql : raw_sql) : block cursor unit :=
  fun c =>
    match sql_run sql (cur_conn c) with
    | (db, inl e) => (Raise e, mkCursor db (cur_rows c))
    | (db, inr rows) => (Normal tt, mkCursor db rows)
    end.

(** [c.fetchone()]: the next row, or [None] when there is none left. *)
Definition fetchone : block cursor pyval :=
  fun c =>
    match cur_rows c with
    | [] => (Normal PyNone, c)
    | r :: rest => (Normal (PyTuple r), mkCursor (cur_conn c) rest)
    end.

(** [c.fetchall()]: the rows left, as a list of tuples. *)
Definition fetchall : block cursor pyval :=
  fun c => (Normal (PyList (map PyTuple (cur_rows c))), mkCursor (cur_conn c) []).

(** [v[0]] *)
Definition item0 {S : Type} (v : pyval) : block S pyval :=
  match v with
  | PyTuple (x :: _) => pass x
  | PyList (x :: _) => pass x
  | PyTuple [] => raise (IndexError "tuple index out of range")
  | PyList [] => raise (IndexError "list index out of range")
  | _ => raise (OtherException "object is not subscriptable")
  end.

(** [sqlite3.connect(path)] *)
Definition sqlite3_connect (path : string) : block world connection :=
  fun w =>
    match disk w !! path with
    | Some d =>
        (Normal (mkConnection path d),
         mkWorld (disk w) (stdout w) (S (open_handles w)))
    | None => (Raise (Sqlite3Error unable_to_open), w)
    end.

(** [db.cursor()] *)
Definition db_cursor (db : connection) : cursor := mkCursor db [].

(** When the block is left, the file holds what the block's statements
    did outside a transaction. *)
Definition leave_block (db : connection) : block world unit :=
  fun w =>
    (Normal tt,
     mkWorld (<[conn_path db := conn_file db]> (disk w)) (stdout w) (open_handles w)).

(** [db.commit()]: what the connection sees becomes the file. *)
Definition db_commit (db : connection) : block world unit :=
  fun w =>
    (Normal tt,
     mkWorld (<[conn_path db := conn_db db]> (disk w)) (stdout w) (open_handles w)).

(** [db.rollback()]: the pending changes are dropped, the file stays. *)
Definition db_rollback (db : connection) : block world unit :=
  fun w => (Normal tt, w).

(** What reading the local variable [db] raises while it is unbound. *)
Definition unbound_db : exn :=
  UnboundLocalError
    "cannot access local variable 'db' where it is not associated with a value".

(** [db.close()] where [db] is the generator's local variable, unbound
    ([None]) until [sqlite3.connect] has returned.  Closing drops whatever
    was not committed. *)
Definition db_close (db : option connection) : block world unit :=
  fun w =>
    match db with
    | Some _ =>
        (Normal tt, mkWorld (disk w) (stdout w) (Nat.pred (open_handles w)))
    | None => (Raise unbound_db, w)
    end.

(** [print(e)] *)
Definition print (e : exn) : block world unit :=
  fun w => (Normal tt, mkWorld (disk w) (stdout w ++ [exn_message e]) (open_handles w)).

(** [finally:] runs its block and then resumes what was under way, unless
    the block itself returns or raises. *)
Definition finally {S A : Type} (pending : completion A) (fin : block S unit)
  : block S A :=
  fun s =>
    match fin s with
    | (Normal _, s') => (pending, s')
    | (Return v, s') => (Return v, s')
    | (Raise e, s') => (Raise e, s')
    end.

(** ** [connect]

    [with connect(path, commit=commit) as c: body].  The generator runs to
    its [yield], the [with] block runs on the yielded cursor, and the
    generator is resumed: normally when the block fell through or returned,
    by throwing the block's exception in at the [yield] otherwise.  An
    exception that the generator handles is suppressed for the [with]
    statement, which then falls through to the statement after it. *)
Definition connect (path : string) (commit : option bool)
    (body : block cursor unit) : block world unit :=
  fun w =>
    let commit := default false commit in
    (* try: db = sqlite3.connect(path) *)
    match sqlite3_connect path w with
    | (Normal db, w1) =>
        (* cursor = db.cursor(); yield cursor *)
        match body (db_cursor db) with
        | (Normal _, c) =>
            (* else: commit or roll back; finally: close *)
            (leave_block (cur_conn c) ;;
             (if commit then db_commit (cur_conn c) else db_rollback (cur_conn c)) ;;
             finally (Normal tt) (db_close (Some (cur_conn c))))%block w1
        | (Return v, c) =>
            (leave_block (cur_conn c) ;;
             (if commit then db_commit (cur_conn c) else db_rollback (cur_conn c)) ;;
             finally (Return v) (db_close (Some (cur_conn c))))%block w1
        | (Raise e, c) =>
            if is_sqlite3_error e
            then (* except sqlite3.Error as e: print(e); finally: close *)
              (leave_block (cur_conn c) ;;
               print e ;;
               finally (Normal tt) (db_close (Some (cur_conn c))))%block w1
            else
              (leave_block (cur_conn c) ;;
               finally (Raise e) (db_close (Some (cur_conn c))))%block w1
        end
    | (Raise e, w1) =>
        (* sqlite3.connect raised: db was never bound *)
        if is_sqlite3_error e
        then (print e ;; finally (Normal tt) (db_close None))%block w1
        else finally (Raise e) (db_close None) w1
    | (Return v, w1) => finally (Return v) (db_close None) w1
    end.

(** ** The public operations *)

Definition sql_execute (path : string) (sql : raw_sql) (commit : option bool)
  : world -> result * world :=
  let commit := default false commit in
  call (connect path (Some commit)
          (execute_sql sql ;;
           rows <- fetchall ;;
           return_ rows)%block).

Definition list_tables (path : string) (commit : option bool)
  : world -> result * world :=
  let commit := default false commit in
  call (connect path (Some commit)
          (execute SelectTableNames ;;
           rows <- fetchall ;;
           return_ rows)%block).

Definition ins_def (path : string) (server : Z) (command definition : string)
    (commit : option bool) : world -> result * world :=
  let commit := default false commit in
  call (connect path (Some commit)
          (execute (InsertDef server command definition) ;;
           return_ (PyBool true))%block ;;
        return_ (PyBool false))%block.

Definition get_def (path : string) (server : Z) (command : string)
  : world -> result * world :=
  call (connect path None
          (execute (SelectDef server command) ;;
           definition <- fetchone ;;
           match definition with
           | PyNone => return_ PyNone
           | _ => (x <- item0 definition ;; return_ x)
           end)%block).

Definition del_def (path : string) (server : Z) (command : string)
    (commit : option bool) : world -> result * world :=
  let commit := default false commit in
  call (connect path (Some commit)
          (execute (DeleteDef server command))).

(** ** Worlds and blocks used as concrete inputs *)

Definition bot_db : string := "bot.db".

(** A store as provisioned: only the [defs] table, no rows. *)
Definition fresh_store : database := mkDatabase ["defs"] [].

(** A store in use; the key [(42, "hello")] has two rows. *)
Definition used_store : database :=
  mkDatabase ["defs"]
    [mkRow 42 "bye" "see you"; mkRow 42 "hello" "world";
     mkRow 7 "hello" "hi"; mkRow 42 "hello" "again"].

(** A store whose table was created under the name [DEFS]. *)
Definition upper_store : database :=
  mkDatabase ["DEFS"] [mkRow 42 "hello" "world"].

(** A database file in which nobody created the [defs] table. *)
Definition empty_file : database := mkDatabase [] [].

Definition world_of (d : database) : world :=
  mkWorld {[bot_db := d]} [] 0%nat.

(** A world in which no file can be opened at any path. *)
Definition no_files : world := mkWorld ∅ [] 0%nat.

(** The first integer that does not fit 64 bits. *)
Definition too_big : Z := 2 ^ 63.

(** [CREATE TABLE defs (server INTEGER, command TEXT, def TEXT)]: no
    transaction is opened for it, so outside a transaction the table is in
    the file at once. *)
Definition create_defs : raw_sql :=
  RawSql "CREATE TABLE defs (server INTEGER, command TEXT, def TEXT)"
    (fun db =>
       if has_defs (conn_db db)
       then (db, inl (Sqlite3Error "table defs already exists"))
       else
         let created d := mkDatabase (tables d ++ [defs_table]) [] in
         match conn_txn db with
         | None => (Connection (conn_path db) (created (conn_file db)) None, inr [])
         | Some pending =>
             (Connection (conn_path db) (conn_file db) (Some (created pending)),
              inr [])
         end).

(** A block that creates the table, inserts a row and then ends as
    [last] says. *)
Definition create_insert_then (last : block cursor unit) : block cursor unit :=
  (execute_sql create_defs ;;
   execute (InsertDef 42 "hello" "world") ;;
   last)%block.

(** * Properties *)

(** ** Rows that match a key *)

Section Rows.
Context {A : Type} (P : A -> Prop) `{!forall x, Decision (P x)}.

Lemma filter_none (l : list A) :
  Forall (fun x => ~ P x) l -> filter P l = [].
Proof.
  induction 1 as [|x l Hx _ IH]; [reflexivity|].
  rewrite filter_cons_False by assumption. exact IH.
Qed.

Lemma filter_all (l : list A) :
  Forall P l -> filter P l = l.
Proof.
  induction 1 as [|x l Hx _ IH]; [reflexivity|].
  rewrite filter_cons_True by assumption. now rewrite IH.
Qed.

(** The first element of [l] that satisfies [P] heads the filtered list. *)
Lemma filter_first (l1 l2 : list A) (x : A) :
  Forall (fun y => ~ P y) l1 -> P x ->
  filter P (l1 ++ x :: l2) = x :: filter P l2.
Proof.
  intros Hl1 Hx.
  rewrite filter_app, (filter_none l1 Hl1), filter_cons_True by assumption.
  reflexivity.
Qed.
End Rows.

(** A row holds a 64-bit integer, so only such a server id has rows. *)
Lemma matches_int64 server command r :
  matches server command r = true -> int64 server = true.
Proof.
  unfold matches. rewrite andb_true_iff, Z.eqb_eq.
  intros [<- _]. apply row_server_int64.
Qed.

Lemma store_int_id server : int64 server = true -> store_int server = server.
Proof. unfold store_int. now intros ->. Qed.

Lemma matches_own_key (server : Z) (command definition : string) :
  int64 server = true ->
  matches server command (mkRow server command definition) = true.
Proof.
  intros Hint. unfold matches; cbn.
  now rewrite (store_int_id _ Hint), Z.eqb_refl, String.eqb_refl.
Qed.

Lemma filter_not_none (server : Z) (command : string) (rows : list row) :
  Forall (fun r => ~ matches server command r) rows ->
  filter (fun r => ~ matches server command r) rows = rows.
Proof. apply filter_all. Qed.

(** After a delete no row of the key is left, and the other rows stay. *)
Lemma filter_not_matches (server : Z) (command : string) (rows : list row) :
  filter (fun r => matches server command r)
         (filter (fun r => ~ matches server command r) rows) = [].
Proof.
  apply filter_none, Forall_forall.
  intros r Hr. apply list_elem_of_filter in Hr. tauto.
Qed.

(** ** What each operation does, case by case *)

(** Writing to a file what it holds changes nothing. *)
Lemma same_file w path d :
  disk w !! path = Some d ->
  mkWorld (<[path := d]> (disk w)) (stdout w) (open_handles w) = w.
Proof. intros Hopen. rewrite (insert_id _ _ _ Hopen). now destruct w. Qed.

Ltac run_connect Hopen :=
  unfold call, connect, bind, sqlite3_connect, execute, execute_sql, fetchone,
    fetchall, return_, finally, db_close, db_commit, db_rollback, leave_block,
    print, db_cursor, mkConnection, begin, conn_db;
  cbn [default from_option id]; rewrite Hopen; cbn;
  rewrite ?insert_insert_eq, ?(insert_id _ _ _ Hopen).

(** No file can be opened at [path]: the error is printed, and closing the
    connection that was never bound raises out of [connect]. *)
Lemma connect_unopenable path commit body w :
  disk w !! path = None ->
  connect path commit body w =
    (Raise unbound_db,
     mkWorld (disk w) (stdout w ++ [unable_to_open]) (open_handles w)).
Proof. intros Hopen. run_connect Hopen. reflexivity. Qed.

(** What an operation does is decided by whether the file opens, whether
    it holds the table, and whether the server id can be bound. *)
Ltac by_cases w path server :=
  let d := fresh "d" in
  let Hopen := fresh "Hopen" in
  let Hdefs := fresh "Hdefs" in
  let Hint := fresh "Hint" in
  destruct (disk w !! path) as [d|] eqn:Hopen;
  [destruct (has_defs d) eqn:Hdefs; [destruct (int64 server) eqn:Hint|]|].

Lemma ins_def_store path server command definition commit w d :
  disk w !! path = Some d -> has_defs d = true -> int64 server = true ->
  ins_def path server command definition commit w =
    (Returned (PyBool true),
     mkWorld
       (if default false commit
        then <[path := mkDatabase (tables d)
                         (defs d ++ [mkRow server command definition])]> (disk w)
        else disk w)
       (stdout w) (open_handles w)).
Proof.
  intros Hopen Hdefs Hint. unfold ins_def. run_connect Hopen.
  rewrite Hdefs. cbn. rewrite Hint. cbn.
  destruct commit as [[]|]; cbn;
    rewrite ?insert_insert_eq, ?(insert_id _ _ _ Hopen); reflexivity.
Qed.

(** The server id does not fit 64 bits: binding raises, [connect] lets the
    exception through, and nothing has changed. *)
Lemma ins_def_unbindable path server command definition commit w d :
  disk w !! path = Some d -> has_defs d = true -> int64 server = false ->
  ins_def path server command definition commit w = (Raised int_too_large, w).
Proof.
  intros Hopen Hdefs Hint. unfold ins_def. run_connect Hopen.
  rewrite Hdefs. cbn. rewrite Hint. cbn.
  rewrite ?(insert_id _ _ _ Hopen). now destruct w.
Qed.

Lemma ins_def_no_table path server command definition commit w d :
  disk w !! path = Some d -> has_defs d = false ->
  ins_def path server command definition commit w =
    (Returned (PyBool false),
     mkWorld (disk w) (stdout w ++ [no_such_table]) (open_handles w)).
Proof.
  intros Hopen Hdefs. unfold ins_def. run_connect Hopen.
  rewrite Hdefs. cbn. now rewrite ?(insert_id _ _ _ Hopen).
Qed.

Lemma ins_def_unopenable path server command definition commit w :
  disk w !! path = None ->
  ins_def path server command definition commit w =
    (Raised unbound_db,
     mkWorld (disk w) (stdout w ++ [unable_to_open]) (open_handles w)).
Proof. intros Hopen. unfold ins_def. run_connect Hopen. reflexivity. Qed.

Lemma del_def_store path server command commit w d :
  disk w !! path = Some d -> has_defs d = true -> int64 server = true ->
  del_def path server command commit w =
    (Returned PyNone,
     mkWorld
       (if default false commit
        then <[path := mkDatabase (tables d)
                         (filter (fun r => ~ matches server command r) (defs d))]>
               (disk w)
        else disk w)
       (stdout w) (open_handles w)).
Proof.
  intros Hopen Hdefs Hint. unfold del_def. run_connect Hopen.
  rewrite Hdefs. cbn. rewrite Hint. cbn.
  destruct commit as [[]|]; cbn;
    rewrite ?insert_insert_eq, ?(insert_id _ _ _ Hopen); reflexivity.
Qed.

Lemma del_def_unbindable path server command commit w d :
  disk w !! path = Some d -> has_defs d = true -> int64 server = false ->
  del_def path server command commit w = (Raised int_too_large, w).
Proof.
  intros Hopen Hdefs Hint. unfold del_def. run_connect Hopen.
  rewrite Hdefs. cbn. rewrite Hint. cbn.
  rewrite ?(insert_id _ _ _ Hopen). now destruct w.
Qed.

Lemma del_def_no_table path server command commit w d :
  disk w !! path = Some d -> has_defs d = false ->
  del_def path server command commit w =
    (Returned PyNone,
     mkWorld (disk w) (stdout w ++ [no_such_table]) (open_handles w)).
Proof.
  intros Hopen Hdefs. unfold del_def. run_connect Hopen.
  rewrite Hdefs. cbn. now rewrite ?(insert_id _ _ _ Hopen).
Qed.

Lemma del_def_unopenable path server command commit w :
  disk w !! path = None ->
  del_def path server command commit w =
    (Raised unbound_db,
     mkWorld (disk w) (stdout w ++ [unable_to_open]) (open_handles w)).
Proof. intros Hopen. unfold del_def. run_connect Hopen. reflexivity. Qed.

Lemma get_def_store path server command w d :
  disk w !! path = Some d -> has_defs d = true -> int64 server = true ->
  get_def path server command w =
    (Returned
       match filter (fun r => matches server command r) (defs d) with
       | [] => PyNone
       | r :: _ => PyStr (row_def r)
       end,
     w).
Proof.
  intros Hopen Hdefs Hint. unfold get_def. run_connect Hopen.
  rewrite Hdefs. cbn. rewrite Hint. cbn.
  destruct (filter _ (defs d)) as [|r rest]; cbn;
    rewrite ?(insert_id _ _ _ Hopen); now destruct w.
Qed.

Lemma get_def_unbindable path server command w d :
  disk w !! path = Some d -> has_defs d = true -> int64 server = false ->
  get_def path server command w = (Raised int_too_large, w).
Proof.
  intros Hopen Hdefs Hint. unfold get_def. run_connect Hopen.
  rewrite Hdefs. cbn. rewrite Hint. cbn.
  rewrite ?(insert_id _ _ _ Hopen). now destruct w.
Qed.

Lemma get_def_no_table path server command w d :
  disk w !! path = Some d -> has_defs d = false ->
  get_def path server command w =
    (Returned PyNone,
     mkWorld (disk w) (stdout w ++ [no_such_table]) (open_handles w)).
Proof.
  intros Hopen Hdefs. unfold get_def. run_connect Hopen.
  rewrite Hdefs. cbn. now rewrite ?(insert_id _ _ _ Hopen).
Qed.

Lemma get_def_unopenable path server command w :
  disk w !! path = None ->
  get_def path server command w =
    (Raised unbound_db,
     mkWorld (disk w) (stdout w ++ [unable_to_open]) (open_handles w)).
Proof. intros Hopen. unfold get_def. run_connect Hopen. reflexivity. Qed.

Lemma list_tables_open path commit w d :
  disk w !! path = Some d ->
  list_tables path commit w =
    (Returned (PyList (map (fun name => PyTuple [PyStr name]) (tables d))),
     mkWorld (if default false commit then <[path := d]> (disk w) else disk w)
       (stdout w) (open_handles w)).
Proof.
  intros Hopen. unfold list_tables. run_connect Hopen.
  rewrite map_map. destruct commit as [[]|]; cbn;
    rewrite ?insert_insert_eq, ?(insert_id _ _ _ Hopen); reflexivity.
Qed.

Lemma sql_execute_unopenable path sql commit w :
  disk w !! path = None ->
  sql_execute path sql commit w =
    (Raised unbound_db,
     mkWorld (disk w) (stdout w ++ [unable_to_open]) (open_handles w)).
Proof. intros Hopen. unfold sql_execute. run_connect Hopen. reflexivity. Qed.

Lemma list_tables_unopenable path commit w :
  disk w !! path = None ->
  list_tables path commit w =
    (Raised unbound_db,
     mkWorld (disk w) (stdout w ++ [unable_to_open]) (open_handles w)).
Proof. intros Hopen. unfold list_tables. run_connect Hopen. reflexivity. Qed.

(** What [get_def] returns, read off the files. *)
Lemma get_def_result path server command w :
  fst (get_def path server command w) =
    match disk w !! path with
    | None => Raised unbound_db
    | Some d =>
        if has_defs d
        then
          if int64 server
          then Returned
                 match filter (fun r => matches server command r) (defs d) with
                 | [] => PyNone
                 | r :: _ => PyStr (row_def r)
                 end
          else Raised int_too_large
        else Returned PyNone
    end.
Proof.
  by_cases w path server.
  - now rewrite (get_def_store _ _ _ _ _ Hopen Hdefs Hint).
  - now rewrite (get_def_unbindable _ _ _ _ _ Hopen Hdefs Hint).
  - now rewrite (get_def_no_table _ _ _ _ _ Hopen Hdefs).
  - now rewrite (get_def_unopenable _ _ _ _ Hopen).
Qed.

(** The files after [ins_def] and after [del_def]. *)
Lemma ins_def_disk path server command definition commit w :
  disk (snd (ins_def path server command definition commit w)) =
    match disk w !! path with
    | Some d =>
        if has_defs d && int64 server && default false commit
        then <[path := mkDatabase (tables d)
                         (defs d ++ [mkRow server command definition])]> (disk w)
        else disk w
    | None => disk w
    end.
Proof.
  by_cases w path server.
  - rewrite (ins_def_store _ _ _ _ _ _ _ Hopen Hdefs Hint). reflexivity.
  - now rewrite (ins_def_unbindable _ _ _ _ _ _ _ Hopen Hdefs Hint).
  - now rewrite (ins_def_no_table _ _ _ _ _ _ _ Hopen Hdefs).
  - now rewrite (ins_def_unopenable _ _ _ _ _ _ Hopen).
Qed.

Lemma del_def_disk path server command commit w :
  disk (snd (del_def path server command commit w)) =
    match disk w !! path with
    | Some d =>
        if has_defs d && int64 server && default false commit
        then <[path := mkDatabase (tables d)
                         (filter (fun r => ~ matches server command r) (defs d))]>
               (disk w)
        else disk w
    | None => disk w
    end.
Proof.
  by_cases w path server.
  - rewrite (del_def_store _ _ _ _ _ _ Hopen Hdefs Hint). reflexivity.
  - now rewrite (del_def_unbindable _ _ _ _ _ _ Hopen Hdefs Hint).
  - now rewrite (del_def_no_table _ _ _ _ _ _ Hopen Hdefs).
  - now rewrite (del_def_unopenable _ _ _ _ _ Hopen).
Qed.

(** ** The scoped connection, for any [with] block *)

Section AnyBlock.
Variables (path : string) (commit : option bool) (body : block cursor unit).
Variables (w : world) (d : database).
Hypothesis Hopen : disk w !! path = Some d.

Let cur : cursor := db_cursor (mkConnection path d).

(** What [connect] leaves when the block ended without raising: with
    [commit] the file holds what the connection saw at the end, without
    it what the block did outside a transaction. *)
Let settled (c : cursor) : world :=
  mkWorld
    (<[conn_path (cur_conn c) :=
         if default false commit
         then conn_db (cur_conn c)
         else conn_file (cur_conn c)]> (disk w))
    (stdout w) (open_handles w).

(** What [connect] leaves when the block raised: the open transaction is
    gone. *)
Let dropped (c : cursor) : gmap string database :=
  <[conn_path (cur_conn c) := conn_file (cur_conn c)]> (disk w).

Lemma connect_falls_through c a :
  body cur = (Normal a, c) ->
  connect path commit body w = (Normal tt, settled c).
Proof.
  intros Hbody. subst cur settled. unfold db_cursor, mkConnection in Hbody.
  run_connect Hopen. rewrite Hbody.
  destruct commit as [[]|]; cbn; rewrite ?insert_insert_eq; reflexivity.
Qed.

Lemma connect_returns c v :
  body cur = (Return v, c) ->
  connect path commit body w = (Return v, settled c).
Proof.
  intros Hbody. subst cur settled. unfold db_cursor, mkConnection in Hbody.
  run_connect Hopen. rewrite Hbody.
  destruct commit as [[]|]; cbn; rewrite ?insert_insert_eq; reflexivity.
Qed.

(** An engine error of the block is printed and goes no further; the open
    transaction does not reach the file. *)
Lemma connect_suppresses c msg :
  body cur = (Raise (Sqlite3Error msg), c) ->
  connect path commit body w =
    (Normal tt, mkWorld (dropped c) (stdout w ++ [msg]) (open_handles w)).
Proof.
  intros Hbody. subst cur dropped. unfold db_cursor, mkConnection in Hbody.
  run_connect Hopen. rewrite Hbody. reflexivity.
Qed.

(** Any other exception passes through [connect], after the close. *)
Lemma connect_propagates c e :
  body cur = (Raise e, c) -> is_sqlite3_error e = false ->
  connect path commit body w =
    (Raise e, mkWorld (dropped c) (stdout w) (open_handles w)).
Proof.
  intros Hbody He. subst cur dropped. unfold db_cursor, mkConnection in Hbody.
  run_connect Hopen. rewrite Hbody, He. reflexivity.
Qed.
End AnyBlock.

(** Every handle that [connect] opens is closed again, whatever the block
    does and whether the file opens or not. *)
Lemma connect_releases_handle path commit body w :
  open_handles (snd (connect path commit body w)) = open_handles w.
Proof.
  destruct (disk w !! path) as [d|] eqn:Hopen.
  - destruct (body (db_cursor (mkConnection path d))) as [[a|v|e] c] eqn:Hbody.
    + now rewrite (connect_falls_through _ _ _ _ _ Hopen _ _ Hbody).
    + now rewrite (connect_returns _ _ _ _ _ Hopen _ _ Hbody).
    + destruct (is_sqlite3_error e) eqn:He.
      * destruct e; try discriminate.
        now rewrite (connect_suppresses _ _ _ _ _ Hopen _ _ Hbody).
      * now rewrite (connect_propagates _ _ _ _ _ Hopen _ _ Hbody He).
  - now rewrite connect_unopenable.
Qed.

Lemma call_state {S : Type} (m : block S unit) (s : S) :
  snd (call m s) = snd (m s).
Proof. unfold call. now destruct (m s) as [[a|v|e] s']. Qed.
(** ** Insert, then look up *)

(** C1 as stated fails: a server id that does not fit 64 bits cannot be
    bound; [ins_def] raises [OverflowError] and so does [get_def]. *)
Lemma ins_def_too_big_not_found :
  disk (world_of fresh_store) !! bot_db = Some fresh_store /\
  Forall (fun r => ~ matches too_big "hello" r) (defs fresh_store) /\
  ins_def bot_db too_big "hello" "world" (Some true) (world_of fresh_store)
    = (Raised int_too_large, world_of fresh_store) /\
  fst (get_def bot_db too_big "hello"
         (snd (ins_def bot_db too_big "hello" "world" (Some true)
                 (world_of fresh_store))))
    <> Returned (PyStr "world").
Proof.
  split; [reflexivity|]. split; [constructor|].
  rewrite (ins_def_unbindable bot_db too_big "hello" "world" (Some true)
             (world_of fresh_store) fresh_store eq_refl eq_refl eq_refl).
  split; [reflexivity|]. cbn [snd].
  rewrite (get_def_unbindable bot_db too_big "hello"
             (world_of fresh_store) fresh_store eq_refl eq_refl eq_refl).
  discriminate.
Qed.

(** C1, amended: for a server id that fits 64 bits, on a store in which
    [(server, command)] has no row,
    [ins_def(path, server, command, definition, commit=True)] followed by
    [get_def(path, server, command)] returns exactly [definition]. *)
Theorem ins_def_then_get_def path server command definition w d :
  disk w !! path = Some d ->
  has_defs d = true ->
  Forall (fun r => ~ matches server command r) (defs d) ->
  int64 server = true ->
  fst (get_def path server command
         (snd (ins_def path server command definition (Some true) w)))
  = Returned (PyStr definition).
Proof.
  intros Hopen Hdefs Hnone Hint.
  rewrite get_def_result, ins_def_disk, Hopen, Hdefs, Hint.
  cbn [andb default from_option id]. rewrite lookup_insert_eq.
  change (has_defs (mkDatabase (tables d) _)) with (has_defs d).
  rewrite Hdefs. cbn [defs].
  rewrite filter_app, (filter_none _ _ Hnone), filter_cons_True
    by (rewrite matches_own_key by exact Hint; exact I).
  reflexivity.
Qed.

Lemma ins_def_then_get_def_witness :
  disk (world_of used_store) !! bot_db = Some used_store /\
  has_defs used_store = true /\
  Forall (fun r => ~ matches 42 "ping" r) (defs used_store) /\
  int64 42 = true /\
  fst (get_def bot_db 42 "ping"
         (snd (ins_def bot_db 42 "ping" "pong" (Some true)
                 (world_of used_store))))
  = Returned (PyStr "pong").
Proof.
  assert (H1 : disk (world_of used_store) !! bot_db = Some used_store)
    by reflexivity.
  assert (H2 : has_defs used_store = true) by reflexivity.
  assert (H3 : Forall (fun r => ~ matches 42 "ping" r) (defs used_store))
    by (repeat constructor; cbn; tauto).
  assert (H4 : int64 42 = true) by reflexivity.
  exact (conj H1 (conj H2 (conj H3 (conj H4
    (ins_def_then_get_def bot_db 42 "ping" "pong" _ _ H1 H2 H3 H4))))).
Defined.

(** ** Look up *)

Lemma get_def_keeps_disk path server command w :
  disk (snd (get_def path server command w)) = disk w.
Proof.
  by_cases w path server.
  - now rewrite (get_def_store _ _ _ _ _ Hopen Hdefs Hint).
  - now rewrite (get_def_unbindable _ _ _ _ _ Hopen Hdefs Hint).
  - now rewrite (get_def_no_table _ _ _ _ _ Hopen Hdefs).
  - now rewrite (get_def_unopenable _ _ _ _ Hopen).
Qed.

(** What [get_def] returns depends on the files only. *)
Lemma get_def_reads_disk path server command w1 w2 :
  disk w1 = disk w2 ->
  fst (get_def path server command w1) = fst (get_def path server command w2).
Proof. intros Hdisk. now rewrite !get_def_result, Hdisk. Qed.

(** C4 as stated fails: for a server id that does not fit 64 bits no row
    matches, and [get_def] raises [OverflowError] where the claim has it
    return [None]. *)
Lemma get_def_too_small_raises :
  disk (world_of used_store) !! bot_db = Some used_store /\
  Forall (fun r => ~ matches (- too_big - 1) "hello" r) (defs used_store) /\
  fst (get_def bot_db (- too_big - 1) "hello" (world_of used_store))
    = Raised int_too_large /\
  fst (get_def bot_db (- too_big - 1) "hello" (world_of used_store))
    <> Returned PyNone.
Proof.
  split; [reflexivity|]. split; [repeat constructor; cbn; tauto|].
  rewrite (get_def_unbindable bot_db (- too_big - 1) "hello"
             (world_of used_store) used_store eq_refl eq_refl eq_refl).
  split; [reflexivity|discriminate].
Qed.

(** C4, amended: on a store, [get_def] returns the [def] text of the first
    row that matches [(server, command)] when there is one, and [None]
    when no row matches and the server id fits 64 bits; it never changes
    the store: it connects without [commit]. *)
Theorem get_def_first_match path server command w :
  disk (snd (get_def path server command w)) = disk w /\
  get_def path server command w
    = call (connect path (Some false)
              (execute (SelectDef server command) ;;
               definition <- fetchone ;;
               match definition with
               | PyNone => return_ PyNone
               | _ => (x <- item0 definition ;; return_ x)
               end)%block) w /\
  forall d,
    disk w !! path = Some d -> has_defs d = true ->
    (forall before r after,
        defs d = before ++ r :: after ->
        Forall (fun r' => ~ matches server command r') before ->
        matches server command r = true ->
        fst (get_def path server command w) = Returned (PyStr (row_def r))) /\
    (int64 server = true ->
     Forall (fun r => ~ matches server command r) (defs d) ->
     fst (get_def path server command w) = Returned PyNone).
Proof.
  split; [apply get_def_keeps_disk|]. split; [reflexivity|].
  intros d Hopen Hdefs. rewrite get_def_result, Hopen, Hdefs. split.
  - intros before r after Hrows Hbefore Hr.
    rewrite (matches_int64 _ _ _ Hr), Hrows.
    rewrite (filter_first _ _ _ _ Hbefore) by (rewrite Hr; exact I).
    reflexivity.
  - intros Hint Hnone. now rewrite Hint, (filter_none _ _ Hnone).
Qed.

Lemma get_def_first_match_witness :
  fst (get_def bot_db 42 "hello" (world_of used_store))
    = Returned (PyStr "world") /\
  fst (get_def bot_db 42 "nothing" (world_of used_store)) = Returned PyNone.
Proof.
  destruct (get_def_first_match bot_db 42 "hello" (world_of used_store))
    as (_ & _ & Hhit).
  destruct (get_def_first_match bot_db 42 "nothing" (world_of used_store))
    as (_ & _ & Hmiss).
  split.
  - apply (proj1 (Hhit used_store eq_refl eq_refl)
             [mkRow 42 "bye" "see you"] (mkRow 42 "hello" "world")
             [mkRow 7 "hello" "hi"; mkRow 42 "hello" "again"]).
    + reflexivity.
    + repeat constructor. cbn. tauto.
    + reflexivity.
  - apply (proj2 (Hmiss used_store eq_refl eq_refl)); [reflexivity|].
    repeat constructor; cbn; tauto.
Defined.

(** ** Without [commit] nothing is kept *)

Lemma ins_def_rollback path server command definition commit w :
  default false commit = false ->
  disk (snd (ins_def path server command definition commit w)) = disk w.
Proof.
  intros Hc. rewrite ins_def_disk.
  destruct (disk w !! path); [|reflexivity].
  now rewrite Hc, andb_false_r.
Qed.

Lemma del_def_rollback path server command commit w :
  default false commit = false ->
  disk (snd (del_def path server command commit w)) = disk w.
Proof.
  intros Hc. rewrite del_def_disk.
  destruct (disk w !! path); [|reflexivity].
  now rewrite Hc, andb_false_r.
Qed.

(** C5 as stated fails: when the key has a committed row, [get_def] after
    an [ins_def] with [commit=False] returns that row's definition, not
    [None]. *)
Lemma rolled_back_ins_def_older_value :
  fst (get_def bot_db 42 "hello"
         (snd (ins_def bot_db 42 "hello" "newer" (Some false)
                 (world_of used_store))))
    = Returned (PyStr "world") /\
  fst (get_def bot_db 42 "hello"
         (snd (ins_def bot_db 42 "hello" "newer" (Some false)
                 (world_of used_store))))
    <> Returned PyNone.
Proof.
  rewrite (get_def_reads_disk bot_db 42 "hello" _ (world_of used_store))
    by (now apply ins_def_rollback).
  rewrite (get_def_store bot_db 42 "hello" (world_of used_store) used_store
             eq_refl eq_refl eq_refl).
  split; [reflexivity|discriminate].
Qed.

(** C5, amended: a mutating operation called with [commit=False] leaves
    the store as it was.  After such an [ins_def], [get_def] on the key
    returns what it returned before, [None] when the key had no row; after
    such a [del_def], [get_def] on the key still returns the value that was
    committed before. *)
Theorem commit_false_changes_nothing path server command definition w :
  let after_ins := snd (ins_def path server command definition (Some false) w) in
  let after_del := snd (del_def path server command (Some false) w) in
  disk after_ins = disk w /\
  disk after_del = disk w /\
  fst (get_def path server command after_ins)
    = fst (get_def path server command w) /\
  fst (get_def path server command after_del)
    = fst (get_def path server command w) /\
  forall d,
    disk w !! path = Some d -> has_defs d = true ->
    (int64 server = true ->
     Forall (fun r => ~ matches server command r) (defs d) ->
     fst (get_def path server command after_ins) = Returned PyNone) /\
    (forall before r after,
        defs d = before ++ r :: after ->
        Forall (fun r' => ~ matches server command r') before ->
        matches server command r = true ->
        fst (get_def path server command after_del)
          = Returned (PyStr (row_def r))).
Proof.
  intros after_ins after_del.
  assert (Hins : disk after_ins = disk w) by now apply ins_def_rollback.
  assert (Hdel : disk after_del = disk w) by now apply del_def_rollback.
  split; [exact Hins|]. split; [exact Hdel|].
  split; [now apply get_def_reads_disk|].
  split; [now apply get_def_reads_disk|].
  intros d Hopen Hdefs. split.
  - intros Hint Hnone.
    rewrite (get_def_reads_disk _ _ _ _ _ Hins),
      (get_def_store _ _ _ _ _ Hopen Hdefs Hint).
    cbn [fst]. now rewrite (filter_none _ _ Hnone).
  - intros before r after Hrows Hbefore Hr.
    rewrite (get_def_reads_disk _ _ _ _ _ Hdel),
      (get_def_store _ _ _ _ _ Hopen Hdefs (matches_int64 _ _ _ Hr)).
    cbn [fst]. rewrite Hrows.
    rewrite (filter_first _ _ _ _ Hbefore) by (rewrite Hr; exact I).
    reflexivity.
Qed.

Lemma commit_false_changes_nothing_witness :
  fst (get_def bot_db 42 "ping"
         (snd (ins_def bot_db 42 "ping" "pong" (Some false)
                 (world_of used_store))))
    = Returned PyNone /\
  fst (get_def bot_db 42 "hello"
         (snd (del_def bot_db 42 "hello" (Some false) (world_of used_store))))
    = Returned (PyStr "world").
Proof.
  destruct (commit_false_changes_nothing bot_db 42 "ping" "pong"
              (world_of used_store)) as (_ & _ & _ & _ & Hins).
  destruct (commit_false_changes_nothing bot_db 42 "hello" "world"
              (world_of used_store)) as (_ & _ & _ & _ & Hdel).
  split.
  - apply (proj1 (Hins used_store eq_refl eq_refl)); [reflexivity|].
    repeat constructor; cbn; tauto.
  - apply (proj2 (Hdel used_store eq_refl eq_refl)
             [mkRow 42 "bye" "see you"] (mkRow 42 "hello" "world")
             [mkRow 7 "hello" "hi"; mkRow 42 "hello" "again"]).
    + reflexivity.
    + repeat constructor. cbn. tauto.
    + reflexivity.
Defined.

(** ** Delete *)

(** C6 as stated fails: for a server id that does not fit 64 bits
    [del_def] raises [OverflowError] instead of returning, and so does the
    [get_def] that follows. *)
Lemma del_def_too_big_raises :
  fst (del_def bot_db too_big "hello" (Some true) (world_of used_store))
    = Raised int_too_large /\
  fst (get_def bot_db too_big "hello"
         (snd (del_def bot_db too_big "hello" (Some true)
                 (world_of used_store))))
    <> Returned PyNone.
Proof.
  rewrite (del_def_unbindable bot_db too_big "hello" (Some true)
             (world_of used_store) used_store eq_refl eq_refl eq_refl).
  split; [reflexivity|]. cbn [snd].
  rewrite (get_def_unbindable bot_db too_big "hello"
             (world_of used_store) used_store eq_refl eq_refl eq_refl).
  discriminate.
Qed.

(** C6, amended: for a server id that fits 64 bits,
    [del_def(path, server, command, commit=True)] removes every row of the
    key and keeps the others, so [get_def] on the key then returns [None];
    [del_def] itself returns [None] whatever the rows were and whatever
    [commit] is. *)
Theorem del_def_removes_all path server command w d :
  disk w !! path = Some d ->
  has_defs d = true ->
  int64 server = true ->
  let kept := filter (fun r => ~ matches server command r) (defs d) in
  let w' := snd (del_def path server command (Some true) w) in
  disk w' = <[path := mkDatabase (tables d) kept]> (disk w) /\
  (forall r, r ∈ kept <-> r ∈ defs d /\ ~ matches server command r) /\
  fst (get_def path server command w') = Returned PyNone /\
  forall commit,
    fst (del_def path server command commit w) = Returned PyNone.
Proof.
  intros Hopen Hdefs Hint kept w'. subst w'.
  rewrite (del_def_store _ _ _ _ _ _ Hopen Hdefs Hint).
  cbn [snd default from_option id disk].
  split; [reflexivity|]. split.
  - intros r. subst kept. rewrite list_elem_of_filter. tauto.
  - split.
    + erewrite get_def_store;
        [|cbn [disk]; apply lookup_insert_eq|exact Hdefs|exact Hint].
      cbn [fst defs]. subst kept. now rewrite filter_not_matches.
    + intros commit. now rewrite (del_def_store _ _ _ _ _ _ Hopen Hdefs Hint).
Qed.

Lemma del_def_removes_all_witness :
  disk (world_of used_store) !! bot_db = Some used_store /\
  has_defs used_store = true /\
  int64 42 = true /\
  disk (snd (del_def bot_db 42 "hello" (Some true) (world_of used_store)))
    !! bot_db
    = Some (mkDatabase ["defs"] [mkRow 42 "bye" "see you"; mkRow 7 "hello" "hi"]) /\
  fst (get_def bot_db 42 "hello"
         (snd (del_def bot_db 42 "hello" (Some true) (world_of used_store))))
    = Returned PyNone /\
  fst (del_def bot_db 42 "hello" (Some true) (world_of used_store))
    = Returned PyNone.
Proof.
  assert (H1 : disk (world_of used_store) !! bot_db = Some used_store)
    by reflexivity.
  assert (H2 : has_defs used_store = true) by reflexivity.
  assert (H3 : int64 42 = true) by reflexivity.
  destruct (del_def_removes_all bot_db 42 "hello" _ _ H1 H2 H3)
    as (Hdisk & _ & Hget & Hret).
  split; [exact H1|]. split; [exact H2|]. split; [exact H3|]. split; [|split].
  - rewrite Hdisk. reflexivity.
  - exact Hget.
  - apply Hret.
Defined.

(** C7 as stated fails: no row matches a server id that does not fit 64
    bits, and [del_def] on it raises [OverflowError]. *)
Lemma del_def_absent_too_big_raises :
  disk (world_of fresh_store) !! bot_db = Some fresh_store /\
  Forall (fun r => ~ matches too_big "hello" r) (defs fresh_store) /\
  fst (del_def bot_db too_big "hello" None (world_of fresh_store))
    = Raised int_too_large /\
  fst (del_def bot_db too_big "hello" (Some true) (world_of fresh_store))
    = Raised int_too_large.
Proof.
  split; [reflexivity|]. split; [constructor|].
  now rewrite !(del_def_unbindable bot_db too_big "hello" _
                  (world_of fresh_store) fresh_store eq_refl eq_refl eq_refl).
Qed.

(** C7, amended: when no row matches [(server, command)], [del_def] leaves
    the store as it was, with and without [commit], and raises nothing
    when the server id fits 64 bits. *)
Theorem del_def_absent_key path server command commit w d :
  disk w !! path = Some d ->
  Forall (fun r => ~ matches server command r) (defs d) ->
  disk (snd (del_def path server command commit w)) = disk w /\
  (int64 server = true ->
   fst (del_def path server command commit w) = Returned PyNone).
Proof.
  intros Hopen Hnone. split.
  - rewrite del_def_disk, Hopen.
    destruct (has_defs d && int64 server && default false commit);
      [|reflexivity].
    rewrite (filter_not_none _ _ _ Hnone).
    apply insert_id. now destruct d.
  - intros Hint. destruct (has_defs d) eqn:Hdefs.
    + now rewrite (del_def_store _ _ _ _ _ _ Hopen Hdefs Hint).
    + now rewrite (del_def_no_table _ _ _ _ _ _ Hopen Hdefs).
Qed.

Lemma del_def_absent_key_witness :
  disk (world_of used_store) !! bot_db = Some used_store /\
  Forall (fun r => ~ matches 42 "nothing" r) (defs used_store) /\
  disk (snd (del_def bot_db 42 "nothing" (Some true) (world_of used_store)))
    = disk (world_of used_store) /\
  fst (del_def bot_db 42 "nothing" (Some true) (world_of used_store))
    = Returned PyNone.
Proof.
  assert (H1 : disk (world_of used_store) !! bot_db = Some used_store)
    by reflexivity.
  assert (H2 : Forall (fun r => ~ matches 42 "nothing" r) (defs used_store))
    by (repeat constructor; cbn; tauto).
  destruct (del_def_absent_key bot_db 42 "nothing" (Some true) _ _ H1 H2)
    as [Hdisk Hret].
  exact (conj H1 (conj H2 (conj Hdisk (Hret eq_refl)))).
Defined.

(** ** The tables of a fresh store *)

(** C8: on a store whose catalog holds the [defs] table and no other,
    [list_tables] returns one row, the name ["defs"]. *)
Theorem list_tables_fresh_store path commit w d :
  disk w !! path = Some d ->
  tables d = [defs_table] ->
  fst (list_tables path commit w) = Returned (PyList [PyTuple [PyStr "defs"]]).
Proof.
  intros Hopen Htables.
  rewrite (list_tables_open _ _ _ _ Hopen), Htables. reflexivity.
Qed.

Lemma list_tables_fresh_store_witness :
  disk (world_of fresh_store) !! bot_db = Some fresh_store /\
  tables fresh_store = [defs_table] /\
  fst (list_tables bot_db None (world_of fresh_store))
    = Returned (PyList [PyTuple [PyStr "defs"]]).
Proof.
  assert (H1 : disk (world_of fresh_store) !! bot_db = Some fresh_store)
    by reflexivity.
  assert (H2 : tables fresh_store = [defs_table]) by reflexivity.
  exact (conj H1 (conj H2 (list_tables_fresh_store bot_db None _ _ H1 H2))).
Defined.

(** ** All or nothing *)

Lemma ins_def_releases_handle path server command definition commit w :
  open_handles (snd (ins_def path server command definition commit w))
  = open_handles w.
Proof.
  by_cases w path server.
  - now rewrite (ins_def_store _ _ _ _ _ _ _ Hopen Hdefs Hint).
  - now rewrite (ins_def_unbindable _ _ _ _ _ _ _ Hopen Hdefs Hint).
  - now rewrite (ins_def_no_table _ _ _ _ _ _ _ Hopen Hdefs).
  - now rewrite (ins_def_unopenable _ _ _ _ _ _ Hopen).
Qed.

Lemma del_def_releases_handle path server command commit w :
  open_handles (snd (del_def path server command commit w)) = open_handles w.
Proof.
  by_cases w path server.
  - now rewrite (del_def_store _ _ _ _ _ _ Hopen Hdefs Hint).
  - now rewrite (del_def_unbindable _ _ _ _ _ _ Hopen Hdefs Hint).
  - now rewrite (del_def_no_table _ _ _ _ _ _ Hopen Hdefs).
  - now rewrite (del_def_unopenable _ _ _ _ _ Hopen).
Qed.

(** C9: once [ins_def] or [del_def] has released its connection, the store
    is either exactly as before or holds the whole mutation: the new row
    appended, or every row of the key gone.  That covers the calls in which
    the engine raises. *)
Theorem mutation_all_or_nothing path server command definition commit w :
  let after_ins := snd (ins_def path server command definition commit w) in
  let after_del := snd (del_def path server command commit w) in
  (open_handles after_ins = open_handles w /\
   (disk after_ins = disk w \/
    exists d,
      disk w !! path = Some d /\
      disk after_ins =
        <[path := mkDatabase (tables d)
                    (defs d ++ [mkRow server command definition])]> (disk w))) /\
  (open_handles after_del = open_handles w /\
   (disk after_del = disk w \/
    exists d,
      disk w !! path = Some d /\
      disk after_del =
        <[path := mkDatabase (tables d)
                    (filter (fun r => ~ matches server command r) (defs d))]>
          (disk w))).
Proof.
  intros after_ins after_del. subst after_ins after_del.
  split; (split; [auto using ins_def_releases_handle, del_def_releases_handle|]).
  - rewrite ins_def_disk. destruct (disk w !! path) as [d|]; [|now left].
    destruct (has_defs d && int64 server && default false commit);
      [right; eauto|now left].
  - rewrite del_def_disk. destruct (disk w !! path) as [d|]; [|now left].
    destruct (has_defs d && int64 server && default false commit);
      [right; eauto|now left].
Qed.

(** ** The default of [commit] *)

(** C10: [commit] defaults to [False] in [connect], [sql_execute],
    [list_tables], [ins_def] and [del_def]; a call that leaves it out rolls
    back, so [ins_def] and [del_def] called that way keep nothing in the
    store. *)
Theorem commit_defaults_to_false path sql server command definition body w :
  connect path None body = connect path (Some false) body /\
  sql_execute path sql None = sql_execute path sql (Some false) /\
  list_tables path None = list_tables path (Some false) /\
  ins_def path server command definition None
    = ins_def path server command definition (Some false) /\
  del_def path server command None = del_def path server command (Some false) /\
  disk (snd (list_tables path None w)) = disk w /\
  disk (snd (ins_def path server command definition None w)) = disk w /\
  disk (snd (del_def path server command None w)) = disk w.
Proof.
  repeat (split; [reflexivity|]).
  split; [|split; [now apply ins_def_rollback|now apply del_def_rollback]].
  destruct (disk w !! path) as [d|] eqn:Hopen.
  - now rewrite (list_tables_open _ _ _ _ Hopen).
  - now rewrite (list_tables_unopenable _ _ _ Hopen).
Qed.

(** ** Errors *)

(** C2, where the code departs from it: when [sqlite3.connect] raises, the
    error is caught and printed, but the [finally] clause then closes a
    connection that was never bound, and the [UnboundLocalError] leaves
    [connect] and every public operation.  No handle was opened. *)
Theorem open_failure_escapes path w :
  disk w !! path = None ->
  (forall commit body,
      connect path commit body w =
        (Raise unbound_db,
         mkWorld (disk w) (stdout w ++ [unable_to_open]) (open_handles w))) /\
  (forall sql commit, fst (sql_execute path sql commit w) = Raised unbound_db) /\
  (forall commit, fst (list_tables path commit w) = Raised unbound_db) /\
  (forall server command definition commit,
      fst (ins_def path server command definition commit w) = Raised unbound_db) /\
  (forall server command,
      fst (get_def path server command w) = Raised unbound_db) /\
  (forall server command commit,
      fst (del_def path server command commit w) = Raised unbound_db).
Proof.
  intros Hopen.
  split; [intros; now apply connect_unopenable|].
  split; [intros; now rewrite sql_execute_unopenable|].
  split; [intros; now rewrite list_tables_unopenable|].
  split; [intros; now rewrite ins_def_unopenable|].
  split; [intros; now rewrite get_def_unopenable|].
  intros; now rewrite del_def_unopenable.
Qed.

Lemma open_failure_escapes_witness :
  disk no_files !! "/no/such/dir/bot.db" = None /\
  fst (get_def "/no/such/dir/bot.db" 42 "hello" no_files) = Raised unbound_db.
Proof.
  assert (H : disk no_files !! "/no/such/dir/bot.db" = None) by reflexivity.
  split; [exact H|].
  apply (proj1 (proj2 (proj2 (proj2 (proj2
           (open_failure_escapes "/no/such/dir/bot.db" no_files H)))))).
Defined.

(** C3 as stated fails: with the [defs] table missing the insert raises an
    engine error inside the [with] block, [connect] prints and suppresses
    it, and control reaches the statement after the block: [ins_def]
    returns [False], not [None]. *)
Lemma ins_def_suppressed_error_returns_False :
  fst (execute (InsertDef 42 "hello" "world")
         (db_cursor (mkConnection bot_db empty_file)))
    = Raise (Sqlite3Error no_such_table) /\
  ins_def bot_db 42 "hello" "world" (Some true) (world_of empty_file)
    = (Returned (PyBool false),
       mkWorld {[bot_db := empty_file]} [no_such_table] 0%nat) /\
  fst (ins_def bot_db 42 "hello" "world" (Some true) (world_of empty_file))
    <> Returned PyNone.
Proof.
  split; [reflexivity|]. split; [reflexivity|].
  rewrite (ins_def_no_table bot_db 42 "hello" "world" (Some true)
             (world_of empty_file) empty_file eq_refl eq_refl).
  discriminate.
Qed.

(** C3, amended: on a file that opens, [ins_def] returns [True] when the
    insert statement raises nothing, and [False], by the [return] after the
    [with] block, when the statement raises an engine error, which [connect]
    prints and suppresses. *)
Theorem ins_def_reports_outcome path server command definition commit w d :
  disk w !! path = Some d ->
  let inserted :=
    fst (execute (InsertDef server command definition)
           (db_cursor (mkConnection path d))) in
  (inserted = Normal tt ->
   fst (ins_def path server command definition commit w)
     = Returned (PyBool true)) /\
  (forall msg,
      inserted = Raise (Sqlite3Error msg) ->
      fst (ins_def path server command definition commit w)
        = Returned (PyBool false) /\
      stdout (snd (ins_def path server command definition commit w))
        = stdout w ++ [msg]).
Proof.
  intros Hopen inserted. subst inserted.
  unfold execute, db_cursor, mkConnection, conn_db. cbn.
  destruct (has_defs d) eqn:Hdefs; cbn.
  - destruct (int64 server) eqn:Hint; cbn.
    + split; [|discriminate]. intros _.
      now rewrite (ins_def_store _ _ _ _ _ _ _ Hopen Hdefs Hint).
    + split; discriminate.
  - split; [discriminate|]. intros msg [= <-].
    now rewrite (ins_def_no_table _ _ _ _ _ _ _ Hopen Hdefs).
Qed.

Lemma ins_def_reports_outcome_witness :
  fst (ins_def bot_db 42 "hello" "world" (Some true) (world_of fresh_store))
    = Returned (PyBool true) /\
  fst (ins_def bot_db 42 "hello" "world" (Some true) (world_of empty_file))
    = Returned (PyBool false).
Proof.
  split.
  - apply (proj1 (ins_def_reports_outcome bot_db 42 "hello" "world" (Some true)
                    (world_of fresh_store) fresh_store eq_refl)).
    reflexivity.
  - apply (proj2 (ins_def_reports_outcome bot_db 42 "hello" "world" (Some true)
                    (world_of empty_file) empty_file eq_refl) no_such_table).
    reflexivity.
Defined.

(** * Further properties of the operations *)

(** ** Keys *)

(** A row belongs to one key only. *)
Lemma matches_one_key server command server' command' r :
  matches server command r = true ->
  matches server' command' r = true ->
  (server, command) = (server', command').
Proof.
  unfold matches. rewrite !andb_true_iff, !Z.eqb_eq, !String.eqb_eq.
  intros [<- <-] [<- <-]. reflexivity.
Qed.

Lemma other_key_no_match server command server' command' definition :
  (server', command') <> (server, command) ->
  int64 server = true ->
  matches server' command' (mkRow server command definition) = false.
Proof.
  intros Hne Hint.
  destruct (matches server' command' (mkRow server command definition)) eqn:Hm;
    [|reflexivity].
  destruct Hne. symmetry.
  exact (matches_one_key _ _ _ _ _
           (matches_own_key server command definition Hint) Hm).
Qed.

(** Deleting the rows of one key keeps the rows of every other key, in
    their order. *)
Lemma filter_other_key server command server' command' (rows : list row) :
  (server', command') <> (server, command) ->
  filter (fun r => matches server' command' r)
         (filter (fun r => ~ matches server command r) rows)
  = filter (fun r => matches server' command' r) rows.
Proof.
  intros Hne. induction rows as [|r rows IH]; [reflexivity|].
  destruct (matches server' command' r) eqn:Hm'.
  - assert (Hm : ~ matches server command r).
    { intros Hm. apply Is_true_true in Hm. destruct Hne.
      exact (matches_one_key _ _ _ _ _ Hm' Hm). }
    rewrite (filter_cons_True (fun r => ~ matches server command r)) by exact Hm.
    rewrite !(filter_cons_True (fun r => matches server' command' r))
      by (rewrite Hm'; exact I).
    now rewrite IH.
  - rewrite (filter_cons_False (fun r => matches server' command' r) r rows)
      by (rewrite Hm'; exact id).
    rewrite <- IH.
    destruct (decide (~ matches server command r)) as [Hm|Hm].
    + rewrite (filter_cons_True (fun r => ~ matches server command r)) by exact Hm.
      now rewrite filter_cons_False by (rewrite Hm'; exact id).
    + now rewrite (filter_cons_False (fun r => ~ matches server command r))
        by exact Hm.
Qed.

Lemma filter_not_twice server command (rows : list row) :
  filter (fun r => ~ matches server command r)
         (filter (fun r => ~ matches server command r) rows)
  = filter (fun r => ~ matches server command r) rows.
Proof.
  apply filter_all, Forall_forall.
  intros r Hr. apply list_elem_of_filter in Hr. tauto.
Qed.

Lemma filter_not_appended server command definition (rows : list row) :
  int64 server = true ->
  Forall (fun r => ~ matches server command r) rows ->
  filter (fun r => ~ matches server command r)
         (rows ++ [mkRow server command definition]) = rows.
Proof.
  intros Hint Hnone.
  rewrite filter_app, (filter_not_none _ _ _ Hnone), filter_cons_False.
  - apply app_nil_r.
  - rewrite matches_own_key by exact Hint. intros H. exact (H I).
Qed.

(** What [del_def] returns, read off the files. *)
Lemma del_def_result path server command commit w :
  fst (del_def path server command commit w) =
    match disk w !! path with
    | None => Raised unbound_db
    | Some d =>
        if has_defs d && negb (int64 server)
        then Raised int_too_large
        else Returned PyNone
    end.
Proof.
  by_cases w path server.
  - now rewrite (del_def_store _ _ _ _ _ _ Hopen Hdefs Hint).
  - now rewrite (del_def_unbindable _ _ _ _ _ _ Hopen Hdefs Hint).
  - now rewrite (del_def_no_table _ _ _ _ _ _ Hopen Hdefs).
  - now rewrite (del_def_unopenable _ _ _ _ _ Hopen).
Qed.

(** ** An insert never replaces *)

(** X1: [ins_def] leaves the rows that are there: when the key already has
    a row, [get_def] returns the same, older definition after any
    [ins_def] on that key, committed or not. *)
Theorem ins_def_keeps_older_definition
    path server command definition commit w d before r after :
  disk w !! path = Some d ->
  has_defs d = true ->
  defs d = before ++ r :: after ->
  Forall (fun r' => ~ matches server command r') before ->
  matches server command r = true ->
  fst (get_def path server command
         (snd (ins_def path server command definition commit w)))
  = Returned (PyStr (row_def r)).
Proof.
  intros Hopen Hdefs Hrows Hbefore Hr.
  pose proof (matches_int64 _ _ _ Hr) as Hint.
  rewrite get_def_result, ins_def_disk, Hopen, Hdefs, Hint. cbn [andb].
  destruct (default false commit).
  - rewrite lookup_insert_eq.
    change (has_defs (mkDatabase (tables d) _)) with (has_defs d).
    rewrite Hdefs. cbn [defs]. rewrite Hrows, <- app_assoc, <- app_comm_cons.
    now rewrite (filter_first _ _ _ _ Hbefore) by (rewrite Hr; exact I).
  - rewrite Hopen, Hdefs, Hrows.
    now rewrite (filter_first _ _ _ _ Hbefore) by (rewrite Hr; exact I).
Qed.

Lemma ins_def_keeps_older_definition_witness :
  fst (get_def bot_db 42 "hello"
         (snd (ins_def bot_db 42 "hello" "newer" (Some true)
                 (world_of used_store))))
  = Returned (PyStr "world").
Proof.
  apply (ins_def_keeps_older_definition bot_db 42 "hello" "newer" (Some true)
           (world_of used_store) used_store
           [mkRow 42 "bye" "see you"] (mkRow 42 "hello" "world")
           [mkRow 7 "hello" "hi"; mkRow 42 "hello" "again"]).
  - reflexivity.
  - reflexivity.
  - reflexivity.
  - repeat constructor. cbn. tauto.
  - reflexivity.
Defined.

(** X2: every committed [ins_def] on a store, with a server id that fits
    64 bits, adds one row for its key: the key may be there already, no
    insert is refused or merged. *)
Theorem ins_def_adds_one_row path server command definition w d :
  disk w !! path = Some d ->
  has_defs d = true ->
  int64 server = true ->
  exists d',
    disk (snd (ins_def path server command definition (Some true) w)) !! path
      = Some d' /\
    tables d' = tables d /\
    defs d' = defs d ++ [mkRow server command definition] /\
    length (filter (fun r => matches server command r) (defs d'))
      = S (length (filter (fun r => matches server command r) (defs d))).
Proof.
  intros Hopen Hdefs Hint.
  rewrite (ins_def_store _ _ _ _ _ _ _ Hopen Hdefs Hint).
  cbn [snd default from_option id disk].
  eexists. split; [apply lookup_insert_eq|]. cbn [tables defs].
  split; [reflexivity|]. split; [reflexivity|].
  rewrite filter_app, length_app, filter_cons_True
    by (rewrite matches_own_key by exact Hint; exact I).
  cbn. lia.
Qed.

Lemma ins_def_adds_one_row_witness :
  exists d',
    disk (snd (ins_def bot_db 42 "hello" "newer" (Some true)
                 (world_of used_store))) !! bot_db = Some d' /\
    tables d' = tables used_store /\
    defs d' = defs used_store ++ [mkRow 42 "hello" "newer"] /\
    length (filter (fun r => matches 42 "hello" r) (defs d'))
      = S (length (filter (fun r => matches 42 "hello" r) (defs used_store))).
Proof.
  apply (ins_def_adds_one_row bot_db 42 "hello" "newer"
           (world_of used_store) used_store); reflexivity.
Defined.

(** ** Other keys *)

(** X3: [ins_def] and [del_def] on one key leave what [get_def] returns for
    every other key as it was, in every world and for every [commit]. *)
Theorem other_keys_untouched
    path server command definition commit server' command' w :
  (server', command') <> (server, command) ->
  fst (get_def path server' command'
         (snd (ins_def path server command definition commit w)))
    = fst (get_def path server' command' w) /\
  fst (get_def path server' command'
         (snd (del_def path server command commit w)))
    = fst (get_def path server' command' w).
Proof.
  intros Hne.
  rewrite !get_def_result, ins_def_disk, del_def_disk.
  destruct (disk w !! path) as [d|] eqn:Hopen; [|now rewrite Hopen].
  destruct (has_defs d && int64 server && default false commit) eqn:Hkept;
    [|now rewrite Hopen].
  apply andb_true_iff in Hkept. destruct Hkept as [Hkept _].
  apply andb_true_iff in Hkept. destruct Hkept as [Hdefs Hint].
  rewrite !lookup_insert_eq.
  change (has_defs (mkDatabase (tables d) _)) with (has_defs d).
  rewrite Hdefs. cbn [defs].
  destruct (int64 server'); [|split; reflexivity].
  split.
  - rewrite filter_app, (filter_cons_False _ (mkRow _ _ _)), app_nil_r
      by (rewrite (other_key_no_match _ _ _ _ _ Hne Hint); exact id).
    reflexivity.
  - now rewrite (filter_other_key _ _ _ _ _ Hne).
Qed.

Lemma other_keys_untouched_witness :
  fst (get_def bot_db 7 "hello"
         (snd (ins_def bot_db 42 "hello" "newer" (Some true)
                 (world_of used_store))))
    = fst (get_def bot_db 7 "hello" (world_of used_store)) /\
  fst (get_def bot_db 7 "hello"
         (snd (del_def bot_db 42 "hello" (Some true) (world_of used_store))))
    = fst (get_def bot_db 7 "hello" (world_of used_store)).
Proof.
  apply (other_keys_untouched bot_db 42 "hello" "newer" (Some true) 7 "hello"
           (world_of used_store)).
  discriminate.
Defined.

(** ** Sequences of operations *)

(** X5: deleting twice is deleting once: a second [del_def] on the same
    key leaves the files as the first one left them, in every world. *)
Theorem del_def_twice path server command commit w :
  let once := snd (del_def path server command commit w) in
  fst (del_def path server command commit once)
    = fst (del_def path server command commit w) /\
  disk (snd (del_def path server command commit once)) = disk once.
Proof.
  intros once. subst once.
  rewrite !del_def_result, !del_def_disk.
  destruct (disk w !! path) as [d|] eqn:Hopen; [|now rewrite Hopen].
  destruct (has_defs d && int64 server && default false commit) eqn:Hkept;
    [|now rewrite Hopen, Hkept].
  rewrite !lookup_insert_eq.
  change (has_defs (mkDatabase (tables d) _)) with (has_defs d).
  rewrite Hkept. cbn [tables defs].
  split; [reflexivity|].
  now rewrite filter_not_twice, insert_insert_eq.
Qed.

(** X6: on a store in which the key has no row, a committed [ins_def]
    followed by a committed [del_def] on that key gives back the files
    exactly as they were. *)
Theorem ins_def_then_del_def_restores path server command definition w d :
  disk w !! path = Some d ->
  has_defs d = true ->
  Forall (fun r => ~ matches server command r) (defs d) ->
  disk (snd (del_def path server command (Some true)
               (snd (ins_def path server command definition (Some true) w))))
  = disk w.
Proof.
  intros Hopen Hdefs Hnone.
  rewrite del_def_disk, !ins_def_disk, Hopen, Hdefs.
  cbn [andb default from_option id]. rewrite andb_true_r.
  destruct (int64 server) eqn:Hint.
  - rewrite lookup_insert_eq.
    change (has_defs (mkDatabase (tables d) _)) with (has_defs d).
    rewrite Hdefs. cbn [tables defs].
    rewrite (filter_not_appended _ _ _ _ Hint Hnone), insert_insert_eq.
    apply insert_id. now destruct d.
  - now rewrite Hopen, Hdefs.
Qed.

Lemma ins_def_then_del_def_restores_witness :
  disk (snd (del_def bot_db 42 "ping" (Some true)
               (snd (ins_def bot_db 42 "ping" "pong" (Some true)
                       (world_of used_store)))))
  = disk (world_of used_store).
Proof.
  apply (ins_def_then_del_def_restores bot_db 42 "ping" "pong"
           (world_of used_store) used_store).
  - reflexivity.
  - reflexivity.
  - repeat constructor; cbn; tauto.
Defined.

(** X7: on any store and for a server id that fits 64 bits, whether the
    key has rows or not, a committed [ins_def] followed by a committed
    [del_def] on the key leaves no row of it: [get_def] returns [None]. *)
Theorem ins_def_del_def_get_def path server command definition w d :
  disk w !! path = Some d ->
  has_defs d = true ->
  int64 server = true ->
  fst (get_def path server command
         (snd (del_def path server command (Some true)
                 (snd (ins_def path server command definition (Some true) w)))))
  = Returned PyNone.
Proof.
  intros Hopen Hdefs Hint.
  rewrite get_def_result, del_def_disk, !ins_def_disk, Hopen, Hdefs, Hint.
  cbn [andb default from_option id]. rewrite lookup_insert_eq.
  change (has_defs (mkDatabase (tables d) _)) with (has_defs d).
  rewrite Hdefs. cbn [andb tables defs]. rewrite lookup_insert_eq.
  change (has_defs (mkDatabase (tables d) _)) with (has_defs d).
  rewrite Hdefs. cbn [defs]. now rewrite filter_not_matches.
Qed.

Lemma ins_def_del_def_get_def_witness :
  fst (get_def bot_db 42 "hello"
         (snd (del_def bot_db 42 "hello" (Some true)
                 (snd (ins_def bot_db 42 "hello" "newer" (Some true)
                         (world_of used_store))))))
  = Returned PyNone.
Proof.
  apply (ins_def_del_def_get_def bot_db 42 "hello" "newer"
           (world_of used_store) used_store); reflexivity.
Defined.

(** X8: to replace a definition, delete and insert: on any store and for
    a server id that fits 64 bits, a committed [del_def] followed by a
    committed [ins_def] on the key makes [get_def] return the new
    definition, whatever rows the key had. *)
Theorem del_def_then_ins_def_replaces path server command definition w d :
  disk w !! path = Some d ->
  has_defs d = true ->
  int64 server = true ->
  fst (get_def path server command
         (snd (ins_def path server command definition (Some true)
                 (snd (del_def path server command (Some true) w)))))
  = Returned (PyStr definition).
Proof.
  intros Hopen Hdefs Hint.
  rewrite get_def_result, ins_def_disk, !del_def_disk, Hopen, Hdefs, Hint.
  cbn [andb default from_option id]. rewrite lookup_insert_eq.
  change (has_defs (mkDatabase (tables d) _)) with (has_defs d).
  rewrite Hdefs. cbn [andb tables defs]. rewrite lookup_insert_eq.
  change (has_defs (mkDatabase (tables d) _)) with (has_defs d).
  rewrite Hdefs. cbn [defs].
  rewrite filter_app, filter_not_matches, filter_cons_True
    by (rewrite matches_own_key by exact Hint; exact I).
  reflexivity.
Qed.

Lemma del_def_then_ins_def_replaces_witness :
  fst (get_def bot_db 42 "hello"
         (snd (ins_def bot_db 42 "hello" "newer" (Some true)
                 (snd (del_def bot_db 42 "hello" (Some true)
                         (world_of used_store))))))
  = Returned (PyStr "newer").
Proof.
  apply (del_def_then_ins_def_replaces bot_db 42 "hello" "newer"
           (world_of used_store) used_store); reflexivity.
Defined.

(** ** What [get_def] can answer *)

(** X9: on a store and for a server id that fits 64 bits, [get_def] does
    not raise; it answers [None] exactly when the key has no row, and
    otherwise the [def] of a row of that key. *)
Theorem get_def_answers path server command w d :
  disk w !! path = Some d ->
  has_defs d = true ->
  int64 server = true ->
  (fst (get_def path server command w) = Returned PyNone <->
   Forall (fun r => ~ matches server command r) (defs d)) /\
  (fst (get_def path server command w) = Returned PyNone \/
   exists r,
     r ∈ defs d /\ matches server command r = true /\
     fst (get_def path server command w) = Returned (PyStr (row_def r))).
Proof.
  intros Hopen Hdefs Hint.
  rewrite (get_def_store _ _ _ _ _ Hopen Hdefs Hint). cbn [fst].
  destruct (filter (fun r => matches server command r) (defs d))
    as [|r rest] eqn:Hrows.
  - split; [|now left]. split; [|reflexivity]. intros _.
    apply Forall_forall. intros r Hr Hm.
    exact (filter_nil_not_elem_of _ _ _ Hrows Hm Hr).
  - assert (Hr : r ∈ filter (fun r => matches server command r) (defs d))
      by (rewrite Hrows; apply list_elem_of_here).
    apply list_elem_of_filter in Hr. destruct Hr as [Hm Hin].
    split.
    + split; [discriminate|]. intros Hnone.
      rewrite Forall_forall in Hnone. destruct (Hnone r Hin Hm).
    + right. exists r. split; [exact Hin|].
      split; [now apply Is_true_true|reflexivity].
Qed.

Lemma get_def_answers_witness :
  (fst (get_def bot_db 42 "hello" (world_of used_store)) = Returned PyNone <->
   Forall (fun r => ~ matches 42 "hello" r) (defs used_store)) /\
  (fst (get_def bot_db 42 "hello" (world_of used_store)) = Returned PyNone \/
   exists r,
     r ∈ defs used_store /\ matches 42 "hello" r = true /\
     fst (get_def bot_db 42 "hello" (world_of used_store))
       = Returned (PyStr (row_def r))).
Proof.
  apply (get_def_answers bot_db 42 "hello" (world_of used_store) used_store);
    reflexivity.
Defined.

(** ** A file without the [defs] table, a server id that cannot be bound *)

(** X10: on a database file in which the [defs] table was never created,
    [get_def] and [del_def] return [None] as they do for a key without
    rows; the engine's message is printed once and the files stay as they
    were, also with [commit=True]. *)
Theorem missing_table_is_swallowed path server command commit w d :
  disk w !! path = Some d ->
  has_defs d = false ->
  let told := mkWorld (disk w) (stdout w ++ [no_such_table]) (open_handles w) in
  get_def path server command w = (Returned PyNone, told) /\
  del_def path server command commit w = (Returned PyNone, told).
Proof.
  intros Hopen Hdefs told. subst told.
  split; [now apply get_def_no_table with d|now apply del_def_no_table with d].
Qed.

Lemma missing_table_is_swallowed_witness :
  get_def bot_db 42 "hello" (world_of empty_file)
    = (Returned PyNone, mkWorld {[bot_db := empty_file]} [no_such_table] 0%nat) /\
  del_def bot_db 42 "hello" (Some true) (world_of empty_file)
    = (Returned PyNone, mkWorld {[bot_db := empty_file]} [no_such_table] 0%nat).
Proof.
  apply (missing_table_is_swallowed bot_db 42 "hello" (Some true)
           (world_of empty_file) empty_file eq_refl eq_refl).
Defined.

(** X19: on a store, a server id that does not fit 64 bits makes
    [ins_def], [get_def] and [del_def] raise [OverflowError]: it is no
    [sqlite3.Error], so [connect] lets it through; nothing is printed and
    nothing changes. *)
Theorem unbindable_server_raises path server command definition commit w d :
  disk w !! path = Some d ->
  has_defs d = true ->
  int64 server = false ->
  ins_def path server command definition commit w = (Raised int_too_large, w) /\
  get_def path server command w = (Raised int_too_large, w) /\
  del_def path server command commit w = (Raised int_too_large, w).
Proof.
  intros Hopen Hdefs Hint.
  split; [now apply ins_def_unbindable with d|].
  split; [now apply get_def_unbindable with d|now apply del_def_unbindable with d].
Qed.

Lemma unbindable_server_raises_witness :
  ins_def bot_db too_big "hello" "world" (Some true) (world_of used_store)
    = (Raised int_too_large, world_of used_store) /\
  get_def bot_db too_big "hello" (world_of used_store)
    = (Raised int_too_large, world_of used_store) /\
  del_def bot_db too_big "hello" (Some true) (world_of used_store)
    = (Raised int_too_large, world_of used_store).
Proof.
  apply (unbindable_server_raises bot_db too_big "hello" "world" (Some true)
           (world_of used_store) used_store eq_refl eq_refl eq_refl).
Defined.

(** ** What [connect] does with the block it is given *)

(** X11: no operation leaves a connection open: after [connect] with any
    block, and after [sql_execute], [list_tables] and [get_def], as many
    handles are open as before, in every world. *)
Theorem handles_always_released path sql server command commit body w :
  open_handles (snd (connect path commit body w)) = open_handles w /\
  open_handles (snd (sql_execute path sql commit w)) = open_handles w /\
  open_handles (snd (list_tables path commit w)) = open_handles w /\
  open_handles (snd (get_def path server command w)) = open_handles w.
Proof.
  split; [apply connect_releases_handle|].
  unfold sql_execute, list_tables, get_def. rewrite !call_state.
  repeat split; apply connect_releases_handle.
Qed.

(** X12: an exception of the block that is no [sqlite3.Error] passes
    through [connect] to the caller, and the open transaction is dropped:
    the file holds what the block's statements did outside a transaction
    and nothing else, also with [commit=True]. *)
Theorem other_exception_passes_through path commit body w d c e :
  disk w !! path = Some d ->
  body (db_cursor (mkConnection path d)) = (Raise e, c) ->
  is_sqlite3_error e = false ->
  fst (connect path commit body w) = Raise e /\
  disk (snd (connect path commit body w)) !! conn_path (cur_conn c)
    = Some (conn_file (cur_conn c)).
Proof.
  intros Hopen Hbody He.
  rewrite (connect_propagates path commit body w d Hopen c e Hbody He).
  split; [reflexivity|apply lookup_insert_eq].
Qed.

Lemma other_exception_passes_through_witness :
  fst (connect bot_db (Some true)
         (create_insert_then (raise (OtherException "boom")))
         (world_of empty_file))
    = Raise (OtherException "boom") /\
  disk (snd (connect bot_db (Some true)
               (create_insert_then (raise (OtherException "boom")))
               (world_of empty_file))) !! bot_db
    = Some fresh_store.
Proof.
  apply (other_exception_passes_through bot_db (Some true)
           (create_insert_then (raise (OtherException "boom")))
           (world_of empty_file) empty_file
           (mkCursor
              (Connection bot_db fresh_store
                 (Some (mkDatabase ["defs"] [mkRow 42 "hello" "world"])))
              [])
           (OtherException "boom")); reflexivity.
Defined.

(** X13: an engine error raised in the block is suppressed by [connect]
    and its message is the last line printed; the [with] statement falls
    through, and the open transaction is dropped: the file holds what the
    block's statements did outside a transaction and nothing else, also
    with [commit=True]. *)
Theorem engine_error_drops_block path commit body w d c msg :
  disk w !! path = Some d ->
  body (db_cursor (mkConnection path d)) = (Raise (Sqlite3Error msg), c) ->
  fst (connect path commit body w) = Normal tt /\
  last (stdout (snd (connect path commit body w))) = Some msg /\
  disk (snd (connect path commit body w)) !! conn_path (cur_conn c)
    = Some (conn_file (cur_conn c)).
Proof.
  intros Hopen Hbody.
  rewrite (connect_suppresses path commit body w d Hopen c msg Hbody).
  split; [reflexivity|]. split; [apply last_snoc|apply lookup_insert_eq].
Qed.

Lemma engine_error_drops_block_witness :
  fst (connect bot_db (Some true)
         (create_insert_then (raise (Sqlite3Error "database is locked")))
         (world_of empty_file))
    = Normal tt /\
  last (stdout (snd (connect bot_db (Some true)
                       (create_insert_then
                          (raise (Sqlite3Error "database is locked")))
                       (world_of empty_file))))
    = Some "database is locked" /\
  disk (snd (connect bot_db (Some true)
               (create_insert_then (raise (Sqlite3Error "database is locked")))
               (world_of empty_file))) !! bot_db
    = Some fresh_store.
Proof.
  apply (engine_error_drops_block bot_db (Some true)
           (create_insert_then (raise (Sqlite3Error "database is locked")))
           (world_of empty_file) empty_file
           (mkCursor
              (Connection bot_db fresh_store
                 (Some (mkDatabase ["defs"] [mkRow 42 "hello" "world"])))
              [])
           "database is locked"); reflexivity.
Defined.

(** X14: when the block ends without raising, by falling through or by
    [return], [connect] with [commit=True] leaves in the file all that the
    connection saw at the end of the block; [connect] without [commit]
    leaves what the block's statements did outside a transaction and drops
    the open transaction.  The value the block returns is passed on. *)
Theorem block_is_kept_or_dropped_whole path body w d c done :
  disk w !! path = Some d ->
  body (db_cursor (mkConnection path d)) = (done, c) ->
  (forall e, done <> Raise e) ->
  let resumed := match done with Return v => Return v | _ => Normal tt end in
  fst (connect path (Some true) body w) = resumed /\
  disk (snd (connect path (Some true) body w)) !! conn_path (cur_conn c)
    = Some (conn_db (cur_conn c)) /\
  fst (connect path None body w) = resumed /\
  disk (snd (connect path None body w)) !! conn_path (cur_conn c)
    = Some (conn_file (cur_conn c)).
Proof.
  intros Hopen Hbody Hdone resumed. subst resumed. destruct done as [a|v|e].
  - rewrite !(connect_falls_through path _ body w d Hopen c a Hbody).
    cbn. rewrite !lookup_insert_eq. repeat split.
  - rewrite !(connect_returns path _ body w d Hopen c v Hbody).
    cbn. rewrite !lookup_insert_eq. repeat split.
  - now destruct (Hdone e).
Qed.

Lemma block_is_kept_or_dropped_whole_witness :
  disk (snd (connect bot_db (Some true)
               (create_insert_then (return_ (PyBool true)))
               (world_of empty_file))) !! bot_db
    = Some (mkDatabase ["defs"] [mkRow 42 "hello" "world"]) /\
  disk (snd (connect bot_db None
               (create_insert_then (return_ (PyBool true)))
               (world_of empty_file))) !! bot_db
    = Some fresh_store.
Proof.
  destruct (block_is_kept_or_dropped_whole bot_db
              (create_insert_then (return_ (PyBool true)))
              (world_of empty_file) empty_file
              (mkCursor
                 (Connection bot_db fresh_store
                    (Some (mkDatabase ["defs"] [mkRow 42 "hello" "world"])))
                 [])
              (Return (PyBool true)) eq_refl eq_refl)
    as (_ & Hkept & _ & Hdropped); [discriminate|].
  split; [exact Hkept|exact Hdropped].
Defined.

(** ** Listing tables *)

(** X15: on any file that opens, [list_tables] returns the table names in
    catalog order, one one-column row each, and leaves everything as it
    was, also with [commit=True]: it has nothing to commit. *)
Theorem list_tables_lists_catalog path commit w d :
  disk w !! path = Some d ->
  list_tables path commit w
  = (Returned (PyList (map (fun name => PyTuple [PyStr name]) (tables d))), w).
Proof.
  intros Hopen. rewrite (list_tables_open _ _ _ _ Hopen).
  destruct (default false commit).
  - rewrite (insert_id _ _ _ Hopen). now destruct w.
  - now destruct w.
Qed.

Lemma list_tables_lists_catalog_witness :
  list_tables bot_db (Some true) (world_of empty_file)
    = (Returned (PyList []), world_of empty_file) /\
  list_tables bot_db (Some true) (world_of used_store)
    = (Returned (PyList [PyTuple [PyStr "defs"]]), world_of used_store).
Proof.
  split.
  - apply (list_tables_lists_catalog bot_db (Some true)
             (world_of empty_file) empty_file). reflexivity.
  - apply (list_tables_lists_catalog bot_db (Some true)
             (world_of used_store) used_store). reflexivity.
Defined.

(** ** What [True] from [ins_def] tells *)

(** X17: when [ins_def] returns [True], the file opened, it holds the
    [defs] table, the server id fits 64 bits and nothing was printed.
    [True] does not tell that the row was kept: when [commit] is [False] or
    left out, the files are as they were. *)
Theorem ins_def_true_means path server command definition commit w :
  fst (ins_def path server command definition commit w)
    = Returned (PyBool true) ->
  (exists d, disk w !! path = Some d /\ has_defs d = true) /\
  int64 server = true /\
  stdout (snd (ins_def path server command definition commit w)) = stdout w /\
  (default false commit = false ->
   disk (snd (ins_def path server command definition commit w)) = disk w).
Proof.
  intros Htrue.
  assert (Hrollback := ins_def_rollback path server command definition commit w).
  by_cases w path server.
  - rewrite (ins_def_store _ _ _ _ _ _ _ Hopen Hdefs Hint) in *.
    cbn [snd stdout]. eauto 10.
  - rewrite (ins_def_unbindable _ _ _ _ _ _ _ Hopen Hdefs Hint) in Htrue.
    discriminate.
  - rewrite (ins_def_no_table _ _ _ _ _ _ _ Hopen Hdefs) in Htrue.
    discriminate.
  - rewrite (ins_def_unopenable _ _ _ _ _ _ Hopen) in Htrue. discriminate.
Qed.

Lemma ins_def_true_means_witness :
  (exists d, disk (world_of upper_store) !! bot_db = Some d /\ has_defs d = true) /\
  int64 42 = true /\
  stdout (snd (ins_def bot_db 42 "hello" "newer" None (world_of upper_store)))
    = stdout (world_of upper_store) /\
  (default false None = false ->
   disk (snd (ins_def bot_db 42 "hello" "newer" None (world_of upper_store)))
     = disk (world_of upper_store)).
Proof.
  apply (ins_def_true_means bot_db 42 "hello" "newer" None (world_of upper_store)).
  reflexivity.
Defined.

(** X18: when [ins_def] with [commit=True] returned [True], the key has a
    definition: [get_def] on it returns a text, never [None] - the one
    just inserted if the key had no row, the older one otherwise. *)
Theorem ins_def_true_then_found path server command definition w :
  fst (ins_def path server command definition (Some true) w)
    = Returned (PyBool true) ->
  exists text,
    fst (get_def path server command
           (snd (ins_def path server command definition (Some true) w)))
    = Returned (PyStr text).
Proof.
  intros Htrue.
  by_cases w path server.
  - rewrite get_def_result, ins_def_disk, Hopen, Hdefs, Hint.
    cbn [andb default from_option id]. rewrite lookup_insert_eq.
    change (has_defs (mkDatabase (tables d) _)) with (has_defs d).
    rewrite Hdefs. cbn [defs].
    rewrite filter_app, (filter_cons_True _ (mkRow _ _ _))
      by (rewrite matches_own_key by exact Hint; exact I).
    destruct (filter (fun r => matches server command r) (defs d));
      cbn; eauto.
  - rewrite (ins_def_unbindable _ _ _ _ _ _ _ Hopen Hdefs Hint) in Htrue.
    discriminate.
  - rewrite (ins_def_no_table _ _ _ _ _ _ _ Hopen Hdefs) in Htrue.
    discriminate.
  - rewrite (ins_def_unopenable _ _ _ _ _ _ Hopen) in Htrue. discriminate.
Qed.

Lemma ins_def_true_then_found_witness :
  exists text,
    fst (get_def bot_db 42 "hello"
           (snd (ins_def bot_db 42 "hello" "newer" (Some true)
                   (world_of used_store))))
    = Returned (PyStr text).
Proof.
  apply (ins_def_true_then_found bot_db 42 "hello" "newer"
           (world_of used_store)).
  reflexivity.
Defined.
